(** * Client sessions of dragonboat: a shallow embedding of [client/session.go]

    The Go package [client] keeps, for every logical client, a [Session]
    record of four [uint64] fields.  The methods on [*Session] mutate the
    record in place and abort with [panic] when the session is used out of
    protocol.  Below, a [uint64] is an integer of [Z] together with its
    wrap-around at [2^64], a method is a function from the session it is
    called on to an [outcome] (normal return with the session as the method
    left it, or a panic), and the [random.Source] interface is a type class. *)

From Stdlib Require Import ZArith Lia Bool String List.
Import ListNotations.

Local Open Scope string_scope.
Local Open Scope Z_scope.

(** ** Unsigned 64-bit integers *)

Module U64.

(** [math.MaxUint64] *)
Definition MaxUint64 : Z := 18446744073709551615.

Definition modulus : Z := MaxUint64 + 1.

(** The value a [uint64] expression takes after overflow. *)
Definition wrap (z : Z) : Z := z mod modulus.

Definition in_range (z : Z) : Prop := 0 <= z <= MaxUint64.

End U64.

(** ** Package [client] *)

Module client.

(** *** Constants *)

Definition NotSessionManagedClientID : Z := 0.
Definition NoOPSeriesID : Z := 0.
Definition SeriesIDForRegister : Z := U64.MaxUint64 - 1.
Definition SeriesIDForUnregister : Z := U64.MaxUint64.
Definition SeriesIDFirstProposal : Z := 1.

(** *** The session record *)

Record Session : Type := mkSession {
  ClusterID : Z;
  ClientID : Z;
  SeriesID : Z;
  RespondedTo : Z
}.

(** Every field holds a [uint64]. *)
Definition wf (cs : Session) : Prop :=
  U64.in_range (ClusterID cs) /\ U64.in_range (ClientID cs) /\
  U64.in_range (SeriesID cs) /\ U64.in_range (RespondedTo cs).

(** *** Methods on [*Session]: in-place update and panics *)

Inductive outcome (A : Type) : Type :=
| Returned (a : A) (cs : Session)
| Panicked (msg : string) (cs : Session).
Arguments Returned {A} a cs.
Arguments Panicked {A} msg cs.

Definition method (A : Type) : Type := Session -> outcome A.

Definition ret {A} (a : A) : method A := fun cs => Returned a cs.

Definition bind {A B} (m : method A) (k : A -> method B) : method B :=
  fun cs =>
    match m cs with
    | Returned a cs' => k a cs'
    | Panicked msg cs' => Panicked msg cs'
    end.

Definition panic {A} (msg : string) : method A := fun cs => Panicked msg cs.

(** Read the receiver. *)
Definition this : method Session := fun cs => Returned cs cs.

(** [cs.SeriesID = v] *)
Definition set_SeriesID (v : Z) : method unit :=
  fun cs => Returned tt (mkSession (ClusterID cs) (ClientID cs) v (RespondedTo cs)).

(** [cs.RespondedTo = v] *)
Definition set_RespondedTo (v : Z) : method unit :=
  fun cs => Returned tt (mkSession (ClusterID cs) (ClientID cs) (SeriesID cs) v).

Declare Scope method_scope.
Delimit Scope method_scope with method.
Notation "x <- m ;; k" := (bind m (fun x => k))
  (at level 61, m at next level, right associativity) : method_scope.
Notation "m ;; k" := (bind m (fun _ => k))
  (at level 61, right associativity) : method_scope.
Local Open Scope method_scope.

(** *** [random.Source] *)

Class Source (R : Type) : Type := {
  Uint64 : R -> Z * R;
  Uint64_range : forall r, U64.in_range (fst (Uint64 r))
}.

(** The source after [n] draws, and the value of the draw that follows. *)
Fixpoint advance {R} `{Source R} (n : nat) (rng : R) : R :=
  match n with
  | O => rng
  | S n' => advance n' (snd (Uint64 rng))
  end.

Definition draw {R} `{Source R} (n : nat) (rng : R) : Z :=
  fst (Uint64 (advance n rng)).

(** A source that only ever yields zero. *)
#[export] Program Instance zeroSource : Source unit := {
  Uint64 := fun _ => (0, tt)
}.
Next Obligation. unfold U64.in_range, U64.MaxUint64. simpl. lia. Qed.

(** A source that replays a script, and yields zero once it is exhausted. *)
#[export] Program Instance scriptedSource : Source (list Z) := {
  Uint64 := fun l =>
    match l with
    | [] => (0, [])
    | x :: l' => (U64.wrap x, l')
    end
}.
Next Obligation.
  destruct r as [| x l']; simpl.
  - unfold U64.in_range, U64.MaxUint64. lia.
  - unfold U64.in_range, U64.wrap.
    pose proof (Z.mod_pos_bound x U64.modulus eq_refl) as Hb.
    unfold U64.modulus, U64.MaxUint64 in *. lia.
Qed.

(** *** Constructors

    Both constructors loop until the source yields a client id other than
    [NotSessionManagedClientID]; [fuel] bounds the number of draws. *)

Fixpoint NewSession {R} `{Source R} (fuel : nat) (clusterID : Z) (rng : R)
  : option (Session * R) :=
  match fuel with
  | O => None
  | S fuel' =>
      let (cid, rng') := Uint64 rng in
      if negb (cid =? NotSessionManagedClientID) then
        Some ({| ClusterID := clusterID;
                 ClientID := cid;
                 SeriesID := NoOPSeriesID + 1;
                 RespondedTo := 0 |}, rng')
      else NewSession fuel' clusterID rng'
  end.

Fixpoint NewNoOPSession {R} `{Source R} (fuel : nat) (clusterID : Z) (rng : R)
  : option (Session * R) :=
  match fuel with
  | O => None
  | S fuel' =>
      let (cid, rng') := Uint64 rng in
      if negb (cid =? NotSessionManagedClientID) then
        Some ({| ClusterID := clusterID;
                 ClientID := cid;
                 SeriesID := NoOPSeriesID;
                 RespondedTo := 0 |}, rng')
      else NewNoOPSession fuel' clusterID rng'
  end.

(** *** Predicates and state-setting methods *)

Definition IsNoOPSession (cs : Session) : bool :=
  SeriesID cs =? NoOPSeriesID.

Definition ClusterIDMustMatch (clusterID : Z) : method unit :=
  cs <- this ;;
  if negb (ClusterID cs =? clusterID) then panic "cluster id do not match"
  else ret tt.

Definition assertRegularSession : method unit :=
  cs <- this ;;
  if (ClientID cs =? NotSessionManagedClientID) ||
     (SeriesID cs =? NoOPSeriesID)
  then panic "not a regular session"
  else ret tt.

Definition PrepareForRegister : method unit :=
  assertRegularSession ;;
  set_SeriesID SeriesIDForRegister.

Definition PrepareForUnregister : method unit :=
  assertRegularSession ;;
  set_SeriesID SeriesIDForUnregister.

Definition PrepareForPropose : method unit :=
  assertRegularSession ;;
  set_SeriesID SeriesIDFirstProposal.

Definition ProposalCompleted : method unit :=
  assertRegularSession ;;
  cs <- this ;;
  if SeriesID cs =? U64.wrap (RespondedTo cs + 1) then
    set_RespondedTo (SeriesID cs) ;;
    cs' <- this ;;
    set_SeriesID (U64.wrap (SeriesID cs' + 1))
  else panic "invalid responded to/series id values".

Definition ValidForProposal (clusterID : Z) : method bool :=
  cs <- this ;;
  if (SeriesID cs =? NoOPSeriesID) &&
     (ClientID cs =? NotSessionManagedClientID) then ret false
  else if negb (ClusterID cs =? clusterID) then ret false
  else if ClientID cs =? NotSessionManagedClientID then ret false
  else if (SeriesID cs =? SeriesIDForRegister) ||
          (SeriesID cs =? SeriesIDForUnregister) then ret false
  else if RespondedTo cs >? SeriesID cs then
    panic "cs.RespondedTo > cs.SeriesID"
  else ret true.

Definition ValidForSessionOp (clusterID : Z) (cs : Session) : bool :=
  if negb (ClusterID cs =? clusterID) then false
  else if (ClientID cs =? NotSessionManagedClientID) ||
          (SeriesID cs =? NoOPSeriesID) then false
  else if (SeriesID cs =? SeriesIDForRegister) ||
          (SeriesID cs =? SeriesIDForUnregister) then true
  else false.

(** *** Vocabulary of the specification *)

(** A regular session: managed by a client and tracking proposals. *)
Definition regular (cs : Session) : Prop :=
  ClientID cs <> NotSessionManagedClientID /\ SeriesID cs <> NoOPSeriesID.

(** The series ids ordinary proposals advance through. *)
Definition normalSeriesID (z : Z) : Prop :=
  SeriesIDFirstProposal <= z < SeriesIDForRegister.

(** [RespondedTo <= SeriesID]. *)
Definition respondedWithinSeries (cs : Session) : Prop :=
  RespondedTo cs <= SeriesID cs.

(** The source yields an acceptable client id at some point. *)
Definition eventuallyValid {R} `{Source R} (rng : R) : Prop :=
  exists n, draw n rng <> NotSessionManagedClientID.

(** *** Callers

    A client drives a session through a sequence of calls of its mutating
    methods.  A panic ends the sequence where it happens. *)

(** The session a call leaves behind, whether it returned or panicked. *)
Definition session_of {A} (o : outcome A) : Session :=
  match o with
  | Returned _ cs => cs
  | Panicked _ cs => cs
  end.

Inductive call : Type :=
| DoPrepareForRegister
| DoPrepareForUnregister
| DoPrepareForPropose
| DoProposalCompleted.

Definition perform (c : call) : method unit :=
  match c with
  | DoPrepareForRegister => PrepareForRegister
  | DoPrepareForUnregister => PrepareForUnregister
  | DoPrepareForPropose => PrepareForPropose
  | DoProposalCompleted => ProposalCompleted
  end.

Fixpoint performAll (l : list call) : method unit :=
  match l with
  | [] => ret tt
  | c :: l' => perform c ;; performAll l'
  end.

Definition isPrepare (c : call) : bool :=
  match c with
  | DoProposalCompleted => false
  | _ => true
  end.

(** How many of the calls are [ProposalCompleted]. *)
Fixpoint completions (l : list call) : nat :=
  match l with
  | [] => O
  | DoProposalCompleted :: l' => S (completions l')
  | _ :: l' => completions l'
  end.

End client.

Import client.
Local Open Scope method_scope.

Example NewSession_redraws :
  NewSession 5 7 [0; 0; 42; 9] =
  Some ({| ClusterID := 7; ClientID := 42; SeriesID := 1; RespondedTo := 0 |}, [9]).
Proof. reflexivity. Qed.

Example ProposalCompleted_once :
  ProposalCompleted (mkSession 7 42 1 0) = Returned tt (mkSession 7 42 2 1).
Proof. reflexivity. Qed.

(** ** Proof tools *)

Ltac unfold_constants :=
  unfold regular, normalSeriesID, respondedWithinSeries, wf, U64.in_range,
    NotSessionManagedClientID, NoOPSeriesID, SeriesIDFirstProposal,
    SeriesIDForRegister, SeriesIDForUnregister, U64.MaxUint64 in *.

Ltac unfold_methods :=
  unfold ProposalCompleted, PrepareForRegister, PrepareForUnregister,
    PrepareForPropose, ClusterIDMustMatch, assertRegularSession,
    ValidForProposal, ValidForSessionOp, IsNoOPSession,
    bind, this, ret, panic, set_SeriesID, set_RespondedTo in *;
  simpl in *.

(** Split on every comparison the method under study performs. *)
Ltac case_tests :=
  repeat match goal with
         | |- context [Z.eqb ?a ?b] => destruct (Z.eqb_spec a b); simpl
         | |- context [Z.gtb ?a ?b] =>
             rewrite (Z.gtb_ltb a b); destruct (Z.ltb_spec b a); simpl
         end.

(** ** Wrap-around *)

Lemma wrap_in_range (z : Z) : U64.in_range (U64.wrap z).
Proof.
  unfold U64.in_range, U64.wrap.
  pose proof (Z.mod_pos_bound z U64.modulus eq_refl) as Hb.
  unfold U64.modulus, U64.MaxUint64 in *. lia.
Qed.

(** [x + 1] on a [uint64]: the successor, except at the top value. *)
Lemma wrap_succ (z : Z) :
  U64.in_range z ->
  U64.wrap (z + 1) = if z =? U64.MaxUint64 then 0 else z + 1.
Proof.
  unfold U64.in_range, U64.wrap, U64.modulus, U64.MaxUint64. intros Hz.
  destruct (Z.eqb_spec z 18446744073709551615) as [-> | Hne].
  - reflexivity.
  - apply Z.mod_small. lia.
Qed.

(** ** The constructors and the random source *)

Section Constructors.

Context {R : Type} `{Source R}.

Lemma draw_S (n : nat) (rng : R) :
  draw (S n) rng = draw n (snd (Uint64 rng)).
Proof. reflexivity. Qed.

Lemma advance_S (n : nat) (rng : R) :
  advance (S n) rng = advance n (snd (Uint64 rng)).
Proof. reflexivity. Qed.

(** One turn of the constructors' loops. *)
Lemma NewSession_step (fuel : nat) (clusterID : Z) (rng : R) :
  NewSession (S fuel) clusterID rng =
  if negb (fst (Uint64 rng) =? NotSessionManagedClientID)
  then Some (mkSession clusterID (fst (Uint64 rng)) (NoOPSeriesID + 1) 0,
             snd (Uint64 rng))
  else NewSession fuel clusterID (snd (Uint64 rng)).
Proof. simpl. destruct (Uint64 rng) as [cid rng']. reflexivity. Qed.

Lemma NewNoOPSession_step (fuel : nat) (clusterID : Z) (rng : R) :
  NewNoOPSession (S fuel) clusterID rng =
  if negb (fst (Uint64 rng) =? NotSessionManagedClientID)
  then Some (mkSession clusterID (fst (Uint64 rng)) NoOPSeriesID 0,
             snd (Uint64 rng))
  else NewNoOPSession fuel clusterID (snd (Uint64 rng)).
Proof. simpl. destruct (Uint64 rng) as [cid rng']. reflexivity. Qed.

(** Among the draws of a source that is eventually valid there is a first
    valid one. *)
Lemma first_valid_draw (n : nat) :
  forall rng : R,
    draw n rng <> NotSessionManagedClientID ->
    exists m, (m <= n)%nat /\ draw m rng <> NotSessionManagedClientID /\
              forall k, (k < m)%nat -> draw k rng = NotSessionManagedClientID.
Proof.
  induction n as [| n IH]; intros rng Hn.
  - exists O. repeat split; [lia | assumption | intros k Hk; lia].
  - destruct (Z.eq_dec (draw 0 rng) NotSessionManagedClientID) as [Hz | Hnz].
    + rewrite draw_S in Hn. destruct (IH _ Hn) as (m & Hle & Hm & Hbefore).
      exists (S m). repeat split; [lia | now rewrite draw_S |].
      intros [| k] Hk; [assumption |].
      rewrite draw_S. apply Hbefore. lia.
    + exists O. repeat split; [lia | assumption | intros k Hk; lia].
Qed.

(** [NewSession] returns at the first valid draw, with that draw as the
    client id, and leaves the source just after it. *)
Lemma NewSession_at_first_valid (clusterID : Z) (n : nat) :
  forall (rng : R) (fuel : nat),
    (forall k, (k < n)%nat -> draw k rng = NotSessionManagedClientID) ->
    draw n rng <> NotSessionManagedClientID ->
    (n < fuel)%nat ->
    NewSession fuel clusterID rng =
    Some (mkSession clusterID (draw n rng) 1 0, advance (S n) rng).
Proof.
  induction n as [| n IH]; intros rng fuel Hbefore Hn Hfuel;
    (destruct fuel as [| fuel]; [lia |]); rewrite NewSession_step.
  - change (draw 0 rng) with (fst (Uint64 rng)) in *.
    destruct (Z.eqb_spec (fst (Uint64 rng)) NotSessionManagedClientID);
      [contradiction | reflexivity].
  - assert (H0 : draw 0 rng = NotSessionManagedClientID) by (apply Hbefore; lia).
    change (draw 0 rng) with (fst (Uint64 rng)) in H0.
    rewrite H0, Z.eqb_refl. cbn [negb].
    rewrite draw_S, advance_S. rewrite draw_S in Hn.
    apply IH; [| assumption | lia].
    intros k Hk. rewrite <- draw_S. apply Hbefore. lia.
Qed.

Lemma NewNoOPSession_at_first_valid (clusterID : Z) (n : nat) :
  forall (rng : R) (fuel : nat),
    (forall k, (k < n)%nat -> draw k rng = NotSessionManagedClientID) ->
    draw n rng <> NotSessionManagedClientID ->
    (n < fuel)%nat ->
    NewNoOPSession fuel clusterID rng =
    Some (mkSession clusterID (draw n rng) 0 0, advance (S n) rng).
Proof.
  induction n as [| n IH]; intros rng fuel Hbefore Hn Hfuel;
    (destruct fuel as [| fuel]; [lia |]); rewrite NewNoOPSession_step.
  - change (draw 0 rng) with (fst (Uint64 rng)) in *.
    destruct (Z.eqb_spec (fst (Uint64 rng)) NotSessionManagedClientID);
      [contradiction | reflexivity].
  - assert (H0 : draw 0 rng = NotSessionManagedClientID) by (apply Hbefore; lia).
    change (draw 0 rng) with (fst (Uint64 rng)) in H0.
    rewrite H0, Z.eqb_refl. cbn [negb].
    rewrite draw_S, advance_S. rewrite draw_S in Hn.
    apply IH; [| assumption | lia].
    intros k Hk. rewrite <- draw_S. apply Hbefore. lia.
Qed.

(** Whatever the constructors return has the fields the source code writes. *)
Lemma NewSession_fields (clusterID : Z) (fuel : nat) :
  forall (rng rng' : R) (cs : Session),
    NewSession fuel clusterID rng = Some (cs, rng') ->
    ClusterID cs = clusterID /\
    ClientID cs <> NotSessionManagedClientID /\
    U64.in_range (ClientID cs) /\
    SeriesID cs = SeriesIDFirstProposal /\
    RespondedTo cs = 0.
Proof.
  induction fuel as [| fuel IH]; intros rng rng' cs Hret; simpl in Hret.
  - discriminate.
  - pose proof (Uint64_range rng) as Hrange.
    destruct (Uint64 rng) as [cid rng1]. simpl in Hrange.
    destruct (Z.eqb_spec cid NotSessionManagedClientID); simpl in Hret.
    + eapply IH; eassumption.
    + injection Hret as <- <-. simpl.
      split; [reflexivity | split; [assumption | split; [assumption |]]].
      split; reflexivity.
Qed.

Lemma NewNoOPSession_fields (clusterID : Z) (fuel : nat) :
  forall (rng rng' : R) (cs : Session),
    NewNoOPSession fuel clusterID rng = Some (cs, rng') ->
    ClusterID cs = clusterID /\
    ClientID cs <> NotSessionManagedClientID /\
    U64.in_range (ClientID cs) /\
    SeriesID cs = NoOPSeriesID /\
    RespondedTo cs = 0.
Proof.
  induction fuel as [| fuel IH]; intros rng rng' cs Hret; simpl in Hret.
  - discriminate.
  - pose proof (Uint64_range rng) as Hrange.
    destruct (Uint64 rng) as [cid rng1]. simpl in Hrange.
    destruct (Z.eqb_spec cid NotSessionManagedClientID); simpl in Hret.
    + eapply IH; eassumption.
    + injection Hret as <- <-. simpl.
      split; [reflexivity | split; [assumption | split; [assumption |]]].
      split; reflexivity.
Qed.

(** On a source that is eventually valid both constructors return. *)
Lemma NewSession_returns (clusterID : Z) (rng : R) :
  eventuallyValid rng ->
  exists n,
    draw n rng <> NotSessionManagedClientID /\
    (forall k, (k < n)%nat -> draw k rng = NotSessionManagedClientID) /\
    forall fuel, (n < fuel)%nat ->
      NewSession fuel clusterID rng =
      Some (mkSession clusterID (draw n rng) 1 0, advance (S n) rng).
Proof.
  intros [n Hn].
  destruct (first_valid_draw n rng Hn) as (m & _ & Hm & Hbefore).
  exists m. split; [assumption | split; [assumption |]].
  intros fuel Hfuel.
  now apply NewSession_at_first_valid.
Qed.

Lemma NewNoOPSession_returns (clusterID : Z) (rng : R) :
  eventuallyValid rng ->
  exists n,
    draw n rng <> NotSessionManagedClientID /\
    (forall k, (k < n)%nat -> draw k rng = NotSessionManagedClientID) /\
    forall fuel, (n < fuel)%nat ->
      NewNoOPSession fuel clusterID rng =
      Some (mkSession clusterID (draw n rng) 0 0, advance (S n) rng).
Proof.
  intros [n Hn].
  destruct (first_valid_draw n rng Hn) as (m & _ & Hm & Hbefore).
  exists m. split; [assumption | split; [assumption |]].
  intros fuel Hfuel.
  now apply NewNoOPSession_at_first_valid.
Qed.

(** Whenever [NewSession] returns, it returns at the first valid draw. *)
Lemma NewSession_returned_inv (clusterID : Z) (fuel : nat) :
  forall (rng rng' : R) (cs : Session),
    NewSession fuel clusterID rng = Some (cs, rng') ->
    exists n,
      (n < fuel)%nat /\
      draw n rng <> NotSessionManagedClientID /\
      (forall k, (k < n)%nat -> draw k rng = NotSessionManagedClientID) /\
      cs = mkSession clusterID (draw n rng) 1 0 /\
      rng' = advance (S n) rng.
Proof.
  induction fuel as [| fuel IH]; intros rng rng' cs Hret.
  - discriminate Hret.
  - rewrite NewSession_step in Hret.
    destruct (Z.eqb_spec (fst (Uint64 rng)) NotSessionManagedClientID)
      as [Hz | Hnz]; cbn [negb] in Hret.
    + destruct (IH _ _ _ Hret) as (n & Hlt & Hn & Hbefore & Hcs & Hrng).
      exists (S n). rewrite draw_S, advance_S.
      split; [lia | split; [exact Hn | split; [| split; assumption]]].
      intros [| k] Hk; [exact Hz |].
      rewrite draw_S. apply Hbefore. lia.
    + injection Hret as <- <-. exists O.
      split; [lia | split; [exact Hnz | split; [| split; reflexivity]]].
      intros k Hk. lia.
Qed.

(** On a source that never yields a valid client id [NewSession] keeps
    drawing: no bound on the draws lets it return. *)
Lemma NewSession_never_valid (clusterID : Z) (rng : R) :
  (forall n, draw n rng = NotSessionManagedClientID) ->
  forall fuel, NewSession fuel clusterID rng = None.
Proof.
  intros Hzero fuel.
  destruct (NewSession fuel clusterID rng) as [[cs rng'] |] eqn:Hret;
    [| reflexivity].
  apply NewSession_returned_inv in Hret.
  destruct Hret as (n & _ & Hn & _). exfalso. apply Hn, Hzero.
Qed.

(** Whenever [NewNoOPSession] returns, it returns at the first valid draw. *)
Lemma NewNoOPSession_returned_inv (clusterID : Z) (fuel : nat) :
  forall (rng rng' : R) (cs : Session),
    NewNoOPSession fuel clusterID rng = Some (cs, rng') ->
    exists n,
      (n < fuel)%nat /\
      draw n rng <> NotSessionManagedClientID /\
      (forall k, (k < n)%nat -> draw k rng = NotSessionManagedClientID) /\
      cs = mkSession clusterID (draw n rng) 0 0 /\
      rng' = advance (S n) rng.
Proof.
  induction fuel as [| fuel IH]; intros rng rng' cs Hret.
  - discriminate Hret.
  - rewrite NewNoOPSession_step in Hret.
    destruct (Z.eqb_spec (fst (Uint64 rng)) NotSessionManagedClientID)
      as [Hz | Hnz]; cbn [negb] in Hret.
    + destruct (IH _ _ _ Hret) as (n & Hlt & Hn & Hbefore & Hcs & Hrng).
      exists (S n). rewrite draw_S, advance_S.
      split; [lia | split; [exact Hn | split; [| split; assumption]]].
      intros [| k] Hk; [exact Hz |].
      rewrite draw_S. apply Hbefore. lia.
    + injection Hret as <- <-. exists O.
      split; [lia | split; [exact Hnz | split; [| split; reflexivity]]].
      intros k Hk. lia.
Qed.

(** On a source that never yields a valid client id [NewNoOPSession] keeps
    drawing: no bound on the draws lets it return. *)
Lemma NewNoOPSession_never_valid (clusterID : Z) (rng : R) :
  (forall n, draw n rng = NotSessionManagedClientID) ->
  forall fuel, NewNoOPSession fuel clusterID rng = None.
Proof.
  intros Hzero fuel.
  destruct (NewNoOPSession fuel clusterID rng) as [[cs rng'] |] eqn:Hret;
    [| reflexivity].
  apply NewNoOPSession_returned_inv in Hret.
  destruct Hret as (n & _ & Hn & _). exfalso. apply Hn, Hzero.
Qed.

End Constructors.

(** The source that only yields zero never lets [NewSession] return. *)
Lemma NewSession_zeroSource (fuel : nat) (clusterID : Z) :
  NewSession fuel clusterID tt = None.
Proof. induction fuel as [| fuel IH]; [reflexivity | exact IH]. Qed.

Lemma NewNoOPSession_zeroSource (fuel : nat) (clusterID : Z) :
  NewNoOPSession fuel clusterID tt = None.
Proof. induction fuel as [| fuel IH]; [reflexivity | exact IH]. Qed.

(** ** The regular-session assertion *)

Lemma regular_dec (cs : Session) : {regular cs} + {~ regular cs}.
Proof.
  unfold regular.
  destruct (Z.eq_dec (ClientID cs) NotSessionManagedClientID);
    destruct (Z.eq_dec (SeriesID cs) NoOPSeriesID); tauto.
Qed.

Lemma assertRegularSession_passes (cs : Session) :
  regular cs -> assertRegularSession cs = Returned tt cs.
Proof.
  intros [Hc Hs]. unfold_methods. case_tests; try contradiction. reflexivity.
Qed.

Lemma assertRegularSession_panics (cs : Session) :
  ~ regular cs -> assertRegularSession cs = Panicked "not a regular session" cs.
Proof.
  intros Hn. unfold_methods. unfold regular in Hn.
  case_tests; try reflexivity. tauto.
Qed.

(** A method that starts with the assertion stops there on a session that is
    not regular, and leaves the session as it found it. *)
Lemma guarded_panics {A} (k : method A) (cs : Session) :
  ~ regular cs ->
  (assertRegularSession ;; k) cs = Panicked "not a regular session" cs.
Proof.
  intros Hn. unfold bind at 1. now rewrite assertRegularSession_panics.
Qed.

Lemma guarded_runs {A} (k : method A) (cs : Session) :
  regular cs -> (assertRegularSession ;; k) cs = k cs.
Proof.
  intros Hr. unfold bind at 1. now rewrite assertRegularSession_passes.
Qed.

(** The test of [ProposalCompleted] on a well-formed regular session: the
    wrap-around of [RespondedTo + 1] never matters, since a series id that
    equals a wrapped successor would be the NoOP series id. *)
Lemma ProposalCompleted_test (cs : Session) :
  wf cs -> regular cs ->
  (SeriesID cs =? U64.wrap (RespondedTo cs + 1)) =
  (SeriesID cs =? RespondedTo cs + 1).
Proof.
  intros (_ & _ & Hs & Hr) [_ Hreg].
  rewrite (wrap_succ _ Hr).
  unfold_constants.
  destruct (Z.eqb_spec (RespondedTo cs) 18446744073709551615) as [Htop | Hlow].
  - destruct (Z.eqb_spec (SeriesID cs) 0); [contradiction |].
    symmetry. apply Z.eqb_neq. lia.
  - reflexivity.
Qed.

Lemma ProposalCompleted_returns (cs : Session) :
  wf cs -> regular cs -> SeriesID cs = RespondedTo cs + 1 ->
  ProposalCompleted cs =
  Returned tt (mkSession (ClusterID cs) (ClientID cs)
                 (U64.wrap (SeriesID cs + 1)) (SeriesID cs)).
Proof.
  intros Hwf Hreg Heq. unfold ProposalCompleted.
  rewrite (guarded_runs _ cs Hreg). unfold bind, this.
  rewrite (ProposalCompleted_test cs Hwf Hreg).
  rewrite (proj2 (Z.eqb_eq _ _) Heq). reflexivity.
Qed.

Lemma ProposalCompleted_panics (cs : Session) :
  wf cs -> regular cs -> SeriesID cs <> RespondedTo cs + 1 ->
  ProposalCompleted cs =
  Panicked "invalid responded to/series id values" cs.
Proof.
  intros Hwf Hreg Hne. unfold ProposalCompleted.
  rewrite (guarded_runs _ cs Hreg). unfold bind, this.
  rewrite (ProposalCompleted_test cs Hwf Hreg).
  rewrite (proj2 (Z.eqb_neq _ _) Hne). reflexivity.
Qed.

(** Whenever [ProposalCompleted] returns, the session was regular, in
    sequence, and both counters moved on. *)
Lemma ProposalCompleted_returned_inv (cs cs' : Session) :
  wf cs -> ProposalCompleted cs = Returned tt cs' ->
  regular cs /\ SeriesID cs = RespondedTo cs + 1 /\
  cs' = mkSession (ClusterID cs) (ClientID cs)
          (U64.wrap (SeriesID cs + 1)) (SeriesID cs).
Proof.
  intros Hwf Hret.
  destruct (regular_dec cs) as [Hreg | Hirr].
  - destruct (Z.eq_dec (SeriesID cs) (RespondedTo cs + 1)) as [Heq | Hne].
    + rewrite (ProposalCompleted_returns cs Hwf Hreg Heq) in Hret.
      injection Hret as <-. auto.
    + rewrite (ProposalCompleted_panics cs Hwf Hreg Hne) in Hret. discriminate.
  - unfold ProposalCompleted in Hret.
    rewrite (guarded_panics _ cs Hirr) in Hret. discriminate.
Qed.

Lemma PrepareFor_returned_inv (v : Z) (cs cs' : Session) :
  (assertRegularSession ;; set_SeriesID v) cs = Returned tt cs' ->
  regular cs /\
  cs' = mkSession (ClusterID cs) (ClientID cs) v (RespondedTo cs).
Proof.
  intros Hret. destruct (regular_dec cs) as [Hreg | Hirr].
  - rewrite (guarded_runs _ cs Hreg) in Hret. unfold set_SeriesID in Hret.
    injection Hret as <-. auto.
  - rewrite (guarded_panics _ cs Hirr) in Hret. discriminate.
Qed.

(** ** Completing proposals *)

(** C1, as the code has it.  On a regular session [ProposalCompleted] returns
    exactly when [SeriesID = RespondedTo + 1]; it then stores the series id in
    [RespondedTo] and increments [SeriesID], and panics without touching the
    session otherwise.  For the session with client id 42, series id 1 and
    responded-to 0, one call yields responded-to 1 and series id 2; a second
    call right after it returns as well, with responded-to 2 and series id 3;
    it is the call after an intervening [PrepareForPropose] that panics. *)
Theorem ProposalCompleted_advances (cs : Session) (clusterID : Z) :
  wf cs -> regular cs ->
  (SeriesID cs = RespondedTo cs + 1 ->
   ProposalCompleted cs =
   Returned tt (mkSession (ClusterID cs) (ClientID cs)
                  (U64.wrap (SeriesID cs + 1)) (SeriesID cs))) /\
  (SeriesID cs <> RespondedTo cs + 1 ->
   ProposalCompleted cs =
   Panicked "invalid responded to/series id values" cs) /\
  ProposalCompleted (mkSession clusterID 42 1 0) =
    Returned tt (mkSession clusterID 42 2 1) /\
  ProposalCompleted (mkSession clusterID 42 2 1) =
    Returned tt (mkSession clusterID 42 3 2) /\
  (PrepareForPropose ;; ProposalCompleted) (mkSession clusterID 42 2 1) =
    Panicked "invalid responded to/series id values" (mkSession clusterID 42 1 1).
Proof.
  intros Hwf Hreg. repeat split.
  - now apply ProposalCompleted_returns.
  - now apply ProposalCompleted_panics.
Qed.

Lemma ProposalCompleted_advances_witness :
  wf (mkSession 7 42 1 0) /\ regular (mkSession 7 42 1 0) /\
  ProposalCompleted (mkSession 7 42 1 0) = Returned tt (mkSession 7 42 2 1).
Proof.
  assert (Hwf : wf (mkSession 7 42 1 0)) by (unfold_constants; simpl; lia).
  assert (Hreg : regular (mkSession 7 42 1 0)) by (unfold_constants; simpl; lia).
  split; [exact Hwf | split; [exact Hreg |]].
  destruct (ProposalCompleted_advances (mkSession 7 42 1 0) 7 Hwf Hreg)
    as (Hret & _).
  exact (Hret eq_refl).
Defined.

(** The second of two consecutive calls does not panic. *)
Lemma ProposalCompleted_twice_returns :
  ProposalCompleted (mkSession 7 42 1 0) = Returned tt (mkSession 7 42 2 1) /\
  ProposalCompleted (mkSession 7 42 2 1) = Returned tt (mkSession 7 42 3 2) /\
  ~ (exists msg cs, ProposalCompleted (mkSession 7 42 2 1) = Panicked msg cs).
Proof.
  split; [reflexivity | split; [reflexivity |]].
  intros (msg & cs & Hpanic). discriminate Hpanic.
Qed.

(** ** Preparing a session *)

(** C4.  [PrepareForRegister], [PrepareForUnregister] and [PrepareForPropose]
    each start with the regular-session assertion.  On a session that is not
    regular (client id 0 or series id 0) they panic at once and leave the
    session untouched; on a regular session they return after setting the
    series id to the Register sentinel, the Unregister sentinel and the
    first-proposal value 1 respectively, with the cluster id, the client id
    and responded-to unchanged. *)
Theorem PrepareFor_fail_fast (cs : Session) :
  (regular cs <->
   ClientID cs <> 0 /\ SeriesID cs <> 0) /\
  (~ regular cs ->
   PrepareForRegister cs = Panicked "not a regular session" cs /\
   PrepareForUnregister cs = Panicked "not a regular session" cs /\
   PrepareForPropose cs = Panicked "not a regular session" cs) /\
  (regular cs ->
   PrepareForRegister cs =
     Returned tt (mkSession (ClusterID cs) (ClientID cs)
                    (U64.MaxUint64 - 1) (RespondedTo cs)) /\
   PrepareForUnregister cs =
     Returned tt (mkSession (ClusterID cs) (ClientID cs)
                    U64.MaxUint64 (RespondedTo cs)) /\
   PrepareForPropose cs =
     Returned tt (mkSession (ClusterID cs) (ClientID cs) 1 (RespondedTo cs))).
Proof.
  split; [reflexivity |]. split.
  - intros Hirr.
    unfold PrepareForRegister, PrepareForUnregister, PrepareForPropose.
    repeat split; now apply guarded_panics.
  - intros Hreg.
    unfold PrepareForRegister, PrepareForUnregister, PrepareForPropose.
    repeat split; now rewrite guarded_runs.
Qed.

Lemma PrepareFor_fail_fast_witness :
  PrepareForRegister (mkSession 7 42 1 0) =
    Returned tt (mkSession 7 42 18446744073709551614 0) /\
  PrepareForPropose (mkSession 7 0 5 4) =
    Panicked "not a regular session" (mkSession 7 0 5 4).
Proof.
  destruct (PrepareFor_fail_fast (mkSession 7 42 1 0)) as (_ & _ & Hruns).
  destruct (PrepareFor_fail_fast (mkSession 7 0 5 4)) as (_ & Hstops & _).
  split.
  - apply Hruns. unfold_constants; simpl; lia.
  - apply Hstops. unfold_constants; simpl; lia.
Defined.

(** ** The order between [RespondedTo] and [SeriesID] *)

(** C2, as the code has it.  [RespondedTo <= SeriesID] holds of every session
    [NewSession] and [NewNoOPSession] return.  From a well-formed session
    where it holds, [PrepareForUnregister] always keeps it;
    [PrepareForRegister] keeps it exactly when [RespondedTo] is not the top
    [uint64] value; [PrepareForPropose] keeps it exactly when
    [RespondedTo <= 1], since it resets the series id to 1 and leaves
    [RespondedTo] alone; [ProposalCompleted] keeps it exactly when the series
    id is not the top [uint64] value, where the increment wraps to 0. *)
Theorem respondedWithinSeries_kept {R : Type} `{Source R}
  (fuel : nat) (clusterID : Z) (rng rng' : R) (fresh cs cs' : Session) :
  (NewSession fuel clusterID rng = Some (fresh, rng') ->
   respondedWithinSeries fresh) /\
  (NewNoOPSession fuel clusterID rng = Some (fresh, rng') ->
   respondedWithinSeries fresh) /\
  (wf cs -> respondedWithinSeries cs ->
   (PrepareForUnregister cs = Returned tt cs' -> respondedWithinSeries cs') /\
   (PrepareForRegister cs = Returned tt cs' ->
    (respondedWithinSeries cs' <-> RespondedTo cs <> U64.MaxUint64)) /\
   (PrepareForPropose cs = Returned tt cs' ->
    (respondedWithinSeries cs' <-> RespondedTo cs <= 1)) /\
   (ProposalCompleted cs = Returned tt cs' ->
    (respondedWithinSeries cs' <-> SeriesID cs <> U64.MaxUint64))).
Proof.
  split; [| split].
  - intros Hnew. apply NewSession_fields in Hnew.
    destruct Hnew as (_ & _ & _ & Hs & Hr).
    unfold respondedWithinSeries. rewrite Hs, Hr. unfold_constants. lia.
  - intros Hnew. apply NewNoOPSession_fields in Hnew.
    destruct Hnew as (_ & _ & _ & Hs & Hr).
    unfold respondedWithinSeries. rewrite Hs, Hr. unfold_constants. lia.
  - intros Hwf Hord.
    assert (Hs : U64.in_range (SeriesID cs)) by apply Hwf.
    assert (Hr : U64.in_range (RespondedTo cs)) by apply Hwf.
    split; [| split; [| split]]; intros Hret.
    + unfold PrepareForUnregister in Hret.
      apply PrepareFor_returned_inv in Hret. destruct Hret as [_ ->].
      unfold_constants. simpl. lia.
    + unfold PrepareForRegister in Hret.
      apply PrepareFor_returned_inv in Hret. destruct Hret as [_ ->].
      unfold_constants. simpl. lia.
    + unfold PrepareForPropose in Hret.
      apply PrepareFor_returned_inv in Hret. destruct Hret as [_ ->].
      unfold_constants. simpl. lia.
    + apply ProposalCompleted_returned_inv in Hret; [| assumption].
      destruct Hret as (_ & _ & ->).
      unfold respondedWithinSeries. simpl.
      rewrite (wrap_succ _ Hs).
      unfold_constants.
      destruct (Z.eqb_spec (SeriesID cs) 18446744073709551615); lia.
Qed.

Lemma respondedWithinSeries_kept_witness :
  respondedWithinSeries (mkSession 7 42 1 0) /\
  respondedWithinSeries (mkSession 7 42 2 1).
Proof.
  destruct (respondedWithinSeries_kept (R := list Z) 1 7 [42] []
              (mkSession 7 42 1 0) (mkSession 7 42 1 0) (mkSession 7 42 2 1))
    as (Hnew & _ & Hops).
  assert (Hfresh : respondedWithinSeries (mkSession 7 42 1 0))
    by (apply Hnew; reflexivity).
  split; [exact Hfresh |].
  assert (Hwf : wf (mkSession 7 42 1 0)) by (unfold_constants; simpl; lia).
  destruct (Hops Hwf Hfresh) as (_ & _ & _ & Hcompleted).
  apply (Hcompleted eq_refl). unfold_constants. simpl. lia.
Defined.

(** A session fresh from [NewSession] that completed two proposals satisfies
    the order; [PrepareForPropose] returns on it and breaks the order. *)
Lemma PrepareForPropose_breaks_order :
  NewSession 1 7 [42] = Some (mkSession 7 42 1 0, []) /\
  (ProposalCompleted ;; ProposalCompleted) (mkSession 7 42 1 0) =
    Returned tt (mkSession 7 42 3 2) /\
  respondedWithinSeries (mkSession 7 42 3 2) /\
  PrepareForPropose (mkSession 7 42 3 2) = Returned tt (mkSession 7 42 1 2) /\
  ~ respondedWithinSeries (mkSession 7 42 1 2).
Proof.
  repeat split.
  - unfold_constants. simpl. lia.
  - unfold_constants. simpl. lia.
Qed.

(** ** Validity for proposals *)

Lemma ValidForProposal_true (clusterID : Z) (cs : Session) :
  ClusterID cs = clusterID ->
  ClientID cs <> NotSessionManagedClientID ->
  SeriesID cs <> SeriesIDForRegister ->
  SeriesID cs <> SeriesIDForUnregister ->
  RespondedTo cs <= SeriesID cs ->
  ValidForProposal clusterID cs = Returned true cs.
Proof.
  intros Hg Hc Hreg Hunreg Hord. unfold_methods.
  case_tests; try reflexivity; try contradiction; lia.
Qed.

Lemma ValidForProposal_panics (clusterID : Z) (cs : Session) :
  ClusterID cs = clusterID ->
  ClientID cs <> NotSessionManagedClientID ->
  SeriesID cs <> SeriesIDForRegister ->
  SeriesID cs <> SeriesIDForUnregister ->
  RespondedTo cs > SeriesID cs ->
  ValidForProposal clusterID cs = Panicked "cs.RespondedTo > cs.SeriesID" cs.
Proof.
  intros Hg Hc Hreg Hunreg Hord. unfold_methods.
  case_tests; try reflexivity; try contradiction; lia.
Qed.

Lemma ValidForProposal_false (clusterID : Z) (cs : Session) :
  ClusterID cs <> clusterID \/
  ClientID cs = NotSessionManagedClientID \/
  SeriesID cs = SeriesIDForRegister \/
  SeriesID cs = SeriesIDForUnregister ->
  ValidForProposal clusterID cs = Returned false cs.
Proof.
  intros Hwhy. unfold_methods.
  case_tests; try reflexivity; exfalso; tauto.
Qed.

(** C3, as the code has it.  [ValidForProposal] returns false whenever the
    series id is the Register or the Unregister sentinel.  For the NoOP
    sentinel 0 it returns false when the client id is 0 or the cluster id
    differs, and returns true when the client id is not 0, the cluster id
    matches and [RespondedTo] is 0, which is the session [NewNoOPSession]
    makes.  It returns true for every series id in the normal range
    [1 .. 2^64-3] when the session is regular, the cluster id matches and
    [RespondedTo <= SeriesID]. *)
Theorem ValidForProposal_sentinels (clusterID : Z) (cs : Session) :
  (SeriesID cs = SeriesIDForRegister \/ SeriesID cs = SeriesIDForUnregister ->
   ValidForProposal clusterID cs = Returned false cs) /\
  (SeriesID cs = NoOPSeriesID ->
   ClientID cs = NotSessionManagedClientID \/ ClusterID cs <> clusterID ->
   ValidForProposal clusterID cs = Returned false cs) /\
  (SeriesID cs = NoOPSeriesID ->
   ClientID cs <> NotSessionManagedClientID -> ClusterID cs = clusterID ->
   RespondedTo cs = 0 ->
   ValidForProposal clusterID cs = Returned true cs) /\
  (normalSeriesID (SeriesID cs) ->
   regular cs -> ClusterID cs = clusterID ->
   RespondedTo cs <= SeriesID cs ->
   ValidForProposal clusterID cs = Returned true cs).
Proof.
  split; [| split; [| split]].
  - intros Hsent. apply ValidForProposal_false. tauto.
  - intros _ Hwhy. apply ValidForProposal_false. tauto.
  - intros Hs Hc Hg Hr. apply ValidForProposal_true; try assumption.
    + rewrite Hs. discriminate.
    + rewrite Hs. discriminate.
    + rewrite Hs, Hr. unfold_constants. lia.
  - intros Hs [Hc _] Hg Hr. apply ValidForProposal_true; try assumption.
    + unfold_constants. lia.
    + unfold_constants. lia.
Qed.

Lemma ValidForProposal_sentinels_witness :
  ValidForProposal 7 (mkSession 7 42 18446744073709551614 0) =
    Returned false (mkSession 7 42 18446744073709551614 0) /\
  ValidForProposal 7 (mkSession 7 0 0 0) = Returned false (mkSession 7 0 0 0) /\
  ValidForProposal 7 (mkSession 7 42 0 0) = Returned true (mkSession 7 42 0 0) /\
  ValidForProposal 7 (mkSession 7 42 5 4) = Returned true (mkSession 7 42 5 4).
Proof.
  split; [| split; [| split]].
  - destruct (ValidForProposal_sentinels 7 (mkSession 7 42 18446744073709551614 0))
      as (Hsent & _).
    apply Hsent. left. reflexivity.
  - destruct (ValidForProposal_sentinels 7 (mkSession 7 0 0 0))
      as (_ & Hnoop & _).
    apply Hnoop; [reflexivity | left; reflexivity].
  - destruct (ValidForProposal_sentinels 7 (mkSession 7 42 0 0))
      as (_ & _ & Hnoop & _).
    apply Hnoop; [reflexivity | simpl; discriminate | reflexivity | reflexivity].
  - destruct (ValidForProposal_sentinels 7 (mkSession 7 42 5 4))
      as (_ & _ & _ & Hnormal).
    apply Hnormal; [| | reflexivity | simpl; lia]; unfold_constants; simpl; lia.
Defined.

(** The session [NewNoOPSession] makes carries the NoOP series id and is
    accepted for proposals. *)
Lemma ValidForProposal_accepts_NoOP :
  NewNoOPSession 1 7 [42] = Some (mkSession 7 42 0 0, []) /\
  SeriesID (mkSession 7 42 0 0) = NoOPSeriesID /\
  ValidForProposal 7 (mkSession 7 42 0 0) = Returned true (mkSession 7 42 0 0).
Proof. repeat split. Qed.

(** ** Creating sessions *)

(** C5.  For any cluster id and any random source, the session [NewSession]
    returns has a client id other than 0, the given cluster id, series id 1
    and responded-to 0; its client id is the first value other than 0 that
    the source yields, the zeros before it having been redrawn.  The
    constructor returns, once it may draw often enough, on every source that
    yields a value other than 0 at some point; on a source that never does it
    keeps redrawing and returns nothing. *)
Theorem NewSession_creates {R : Type} `{Source R} (clusterID : Z) (rng : R) :
  (forall fuel cs rng',
     NewSession fuel clusterID rng = Some (cs, rng') ->
     ClusterID cs = clusterID /\
     ClientID cs <> NotSessionManagedClientID /\
     SeriesID cs = 1 /\
     RespondedTo cs = 0 /\
     exists n,
       (n < fuel)%nat /\
       ClientID cs = draw n rng /\
       (forall k, (k < n)%nat -> draw k rng = NotSessionManagedClientID) /\
       rng' = advance (S n) rng) /\
  (eventuallyValid rng ->
   exists n,
     draw n rng <> NotSessionManagedClientID /\
     (forall k, (k < n)%nat -> draw k rng = NotSessionManagedClientID) /\
     forall fuel, (n < fuel)%nat ->
       NewSession fuel clusterID rng =
       Some (mkSession clusterID (draw n rng) 1 0, advance (S n) rng)) /\
  ((forall n, draw n rng = NotSessionManagedClientID) ->
   forall fuel, NewSession fuel clusterID rng = None).
Proof.
  split; [| split].
  - intros fuel cs rng' Hnew.
    destruct (NewSession_returned_inv _ _ _ _ _ Hnew)
      as (n & Hlt & Hn & Hbefore & -> & ->).
    simpl. repeat split; try assumption.
    exists n. repeat split; assumption.
  - apply NewSession_returns.
  - apply NewSession_never_valid.
Qed.

Lemma NewSession_creates_witness :
  exists n,
    forall fuel, (n < fuel)%nat ->
      NewSession fuel 7 [0; 0; 42; 9] = Some (mkSession 7 42 1 0, [9]).
Proof.
  destruct (NewSession_creates 7 [0; 0; 42; 9]) as (_ & Hreturns & _).
  assert (Hvalid : eventuallyValid [0; 0; 42; 9]).
  { exists 2%nat. vm_compute. discriminate. }
  destruct (Hreturns Hvalid) as (n & Hn & Hbefore & Hnew).
  exists n.
  destruct n as [| [| [| n]]].
  - exfalso. apply Hn. reflexivity.
  - exfalso. apply Hn. reflexivity.
  - exact Hnew.
  - exfalso. specialize (Hbefore 2%nat). vm_compute in Hbefore.
    assert (Hlt : (2 < S (S (S n)))%nat) by lia.
    specialize (Hbefore Hlt). discriminate Hbefore.
Defined.

(** On the source that only yields zero no amount of redrawing makes
    [NewSession] return. *)
Lemma NewSession_may_not_return :
  ~ (exists fuel cs rng', NewSession fuel 7 tt = Some (cs, rng')).
Proof.
  intros (fuel & cs & rng' & Hnew).
  rewrite NewSession_zeroSource in Hnew. discriminate Hnew.
Qed.

(** ** NoOP sessions *)

(** C6.  [NewNoOPSession] returns a session whose series id is the NoOP
    sentinel 0.  [IsNoOPSession] is true exactly of the sessions whose series
    id is that sentinel: it is true of every session [NewNoOPSession] makes
    and false of every session [NewSession] makes.  Both constructors do make
    a session on every source that yields a value other than 0 at some
    point. *)
Theorem IsNoOPSession_exact {R : Type} `{Source R}
  (cs made : Session) (fuel : nat) (clusterID : Z) (rng rng' : R) :
  (IsNoOPSession cs = true <-> SeriesID cs = NoOPSeriesID) /\
  (NewNoOPSession fuel clusterID rng = Some (made, rng') ->
   SeriesID made = 0 /\ IsNoOPSession made = true) /\
  (NewSession fuel clusterID rng = Some (made, rng') ->
   IsNoOPSession made = false) /\
  (eventuallyValid rng ->
   (exists fuel0 noop rng0,
      NewNoOPSession fuel0 clusterID rng = Some (noop, rng0)) /\
   (exists fuel0 fresh rng0,
      NewSession fuel0 clusterID rng = Some (fresh, rng0))).
Proof.
  split; [| split; [| split]].
  - unfold IsNoOPSession. apply Z.eqb_eq.
  - intros Hnew. apply NewNoOPSession_fields in Hnew.
    destruct Hnew as (_ & _ & _ & Hs & _).
    unfold IsNoOPSession. rewrite Hs. split; reflexivity.
  - intros Hnew. apply NewSession_fields in Hnew.
    destruct Hnew as (_ & _ & _ & Hs & _).
    unfold IsNoOPSession. rewrite Hs. reflexivity.
  - intros Hvalid. split.
    + destruct (NewNoOPSession_returns clusterID rng Hvalid) as (n & _ & _ & Hn).
      exists (S n). eexists. eexists. apply Hn. lia.
    + destruct (NewSession_returns clusterID rng Hvalid) as (n & _ & _ & Hn).
      exists (S n). eexists. eexists. apply Hn. lia.
Qed.

Lemma IsNoOPSession_exact_witness :
  IsNoOPSession (mkSession 7 42 0 0) = true /\
  IsNoOPSession (mkSession 7 42 1 0) = false.
Proof.
  split.
  - destruct (IsNoOPSession_exact (R := list Z) (mkSession 7 42 0 0)
                (mkSession 7 42 0 0) 3 7 [0; 42] [])
      as (_ & Hnoop & _).
    apply Hnoop. reflexivity.
  - destruct (IsNoOPSession_exact (R := list Z) (mkSession 7 42 1 0)
                (mkSession 7 42 1 0) 3 7 [0; 42] [])
      as (_ & _ & Hfresh & _).
    apply Hfresh. reflexivity.
Defined.

(** C10.  For any cluster id and any random source, a session made by
    [NewNoOPSession] has a client id other than 0, zeros having been redrawn
    (it is the first value other than 0 the source yields), and is a NoOP
    session all the same.  Being a NoOP session is decided by the series id
    alone: [IsNoOPSession] is true exactly when the series id is the NoOP
    sentinel, whatever the client id, the cluster id and responded-to are.
    The constructor makes a session on every source that yields a value
    other than 0 at some point, and none on a source that never does. *)
Theorem NewNoOPSession_managed_client {R : Type} `{Source R}
  (clusterID : Z) (rng : R) :
  (forall fuel cs rng',
     NewNoOPSession fuel clusterID rng = Some (cs, rng') ->
     ClientID cs <> NotSessionManagedClientID /\ IsNoOPSession cs = true /\
     exists n,
       ClientID cs = draw n rng /\
       (forall k, (k < n)%nat -> draw k rng = NotSessionManagedClientID)) /\
  (forall cs : Session,
     IsNoOPSession cs = true <-> SeriesID cs = NoOPSeriesID) /\
  (forall clusterID' clientID seriesID respondedTo,
     IsNoOPSession (mkSession clusterID' clientID seriesID respondedTo) =
     (seriesID =? 0)) /\
  (forall cs cs' : Session,
     SeriesID cs = SeriesID cs' -> IsNoOPSession cs = IsNoOPSession cs') /\
  (eventuallyValid rng ->
   exists n,
     draw n rng <> NotSessionManagedClientID /\
     (forall k, (k < n)%nat -> draw k rng = NotSessionManagedClientID) /\
     forall fuel, (n < fuel)%nat ->
       NewNoOPSession fuel clusterID rng =
       Some (mkSession clusterID (draw n rng) 0 0, advance (S n) rng)) /\
  ((forall n, draw n rng = NotSessionManagedClientID) ->
   forall fuel, NewNoOPSession fuel clusterID rng = None).
Proof.
  split; [| split; [| split; [| split; [| split]]]].
  - intros fuel cs rng' Hnew.
    destruct (NewNoOPSession_returned_inv _ _ _ _ _ Hnew)
      as (n & _ & Hn & Hbefore & -> & _).
    simpl. split; [exact Hn | split; [reflexivity |]].
    exists n. split; [reflexivity | exact Hbefore].
  - intros cs. unfold IsNoOPSession. apply Z.eqb_eq.
  - reflexivity.
  - intros cs cs' Hs. unfold IsNoOPSession. now rewrite Hs.
  - apply NewNoOPSession_returns.
  - apply NewNoOPSession_never_valid.
Qed.

Lemma NewNoOPSession_managed_client_witness :
  ClientID (mkSession 7 42 0 0) <> NotSessionManagedClientID /\
  IsNoOPSession (mkSession 7 42 0 0) = true.
Proof.
  destruct (NewNoOPSession_managed_client 7 [0; 42]) as (Hmade & _).
  destruct (Hmade 2%nat (mkSession 7 42 0 0) [] eq_refl) as (Hc & Hnoop & _).
  split; [exact Hc | exact Hnoop].
Defined.

(** ** The order assertion of [ValidForProposal] *)

Lemma ValidForProposal_total (clusterID : Z) (cs : Session) :
  RespondedTo cs <= SeriesID cs ->
  exists b, ValidForProposal clusterID cs = Returned b cs.
Proof.
  intros Hord. unfold_methods.
  case_tests; try (eexists; reflexivity); lia.
Qed.

(** C7.  [ValidForProposal] asserts that [RespondedTo] does not exceed
    [SeriesID].  On every session with [RespondedTo <= SeriesID] the call
    returns a boolean and leaves the session as it was: the panic cannot be
    reached.  On a session with [RespondedTo > SeriesID] that passes the
    checks before the assertion (not the unmanaged NoOP session, matching
    cluster id, client id other than 0, series id neither the Register nor
    the Unregister sentinel) the call panics instead of returning. *)
Theorem ValidForProposal_asserts_order (clusterID : Z) (cs : Session) :
  (respondedWithinSeries cs ->
   exists b, ValidForProposal clusterID cs = Returned b cs) /\
  (RespondedTo cs > SeriesID cs ->
   ~ (SeriesID cs = NoOPSeriesID /\ ClientID cs = NotSessionManagedClientID) ->
   ClusterID cs = clusterID ->
   ClientID cs <> NotSessionManagedClientID ->
   SeriesID cs <> SeriesIDForRegister ->
   SeriesID cs <> SeriesIDForUnregister ->
   ValidForProposal clusterID cs =
   Panicked "cs.RespondedTo > cs.SeriesID" cs).
Proof.
  split.
  - apply ValidForProposal_total.
  - intros Hord _ Hg Hc Hreg Hunreg. now apply ValidForProposal_panics.
Qed.

Lemma ValidForProposal_asserts_order_witness :
  (exists b, ValidForProposal 7 (mkSession 7 42 5 4) =
             Returned b (mkSession 7 42 5 4)) /\
  ValidForProposal 7 (mkSession 7 42 1 2) =
    Panicked "cs.RespondedTo > cs.SeriesID" (mkSession 7 42 1 2).
Proof.
  split.
  - destruct (ValidForProposal_asserts_order 7 (mkSession 7 42 5 4))
      as (Hreturns & _).
    apply Hreturns. unfold respondedWithinSeries. simpl. lia.
  - destruct (ValidForProposal_asserts_order 7 (mkSession 7 42 1 2))
      as (_ & Hpanics).
    apply Hpanics; simpl; try reflexivity; try discriminate; try lia.
    intros [Hs _]. discriminate Hs.
Defined.

(** ** Validity for session operations *)

Lemma ValidForSessionOp_true_iff (clusterID : Z) (cs : Session) :
  ValidForSessionOp clusterID cs = true <->
  ClusterID cs = clusterID /\
  ClientID cs <> NotSessionManagedClientID /\
  (SeriesID cs = SeriesIDForRegister \/ SeriesID cs = SeriesIDForUnregister).
Proof.
  unfold_methods. unfold_constants.
  case_tests; split; intros Hyp; try discriminate; try reflexivity;
    try tauto; try lia.
Qed.

(** C8.  [ValidForSessionOp] returns true only for sessions whose series id
    is exactly the Register or the Unregister sentinel and whose cluster id
    matches the argument; for a session with any other series id, or with
    another cluster id, it returns false.  It does return true on such a
    session as soon as the client id is not 0. *)
Theorem ValidForSessionOp_sentinels_only (clusterID : Z) (cs : Session) :
  (ValidForSessionOp clusterID cs = true ->
   (SeriesID cs = SeriesIDForRegister \/ SeriesID cs = SeriesIDForUnregister) /\
   ClusterID cs = clusterID) /\
  ((SeriesID cs <> SeriesIDForRegister /\ SeriesID cs <> SeriesIDForUnregister) \/
   ClusterID cs <> clusterID ->
   ValidForSessionOp clusterID cs = false) /\
  (ClusterID cs = clusterID ->
   ClientID cs <> NotSessionManagedClientID ->
   SeriesID cs = SeriesIDForRegister \/ SeriesID cs = SeriesIDForUnregister ->
   ValidForSessionOp clusterID cs = true).
Proof.
  split; [| split].
  - intros Htrue. apply ValidForSessionOp_true_iff in Htrue. tauto.
  - intros Hwhy.
    destruct (ValidForSessionOp clusterID cs) eqn:Hv; [| reflexivity].
    apply ValidForSessionOp_true_iff in Hv. exfalso. tauto.
  - intros Hg Hc Hs. apply ValidForSessionOp_true_iff. tauto.
Qed.

Lemma ValidForSessionOp_sentinels_only_witness :
  ValidForSessionOp 7 (mkSession 7 42 18446744073709551614 0) = true /\
  ValidForSessionOp 7 (mkSession 7 42 18446744073709551615 3) = true /\
  ValidForSessionOp 7 (mkSession 7 42 5 4) = false /\
  ValidForSessionOp 8 (mkSession 7 42 18446744073709551614 0) = false.
Proof.
  split; [| split; [| split]].
  - destruct (ValidForSessionOp_sentinels_only 7
                (mkSession 7 42 18446744073709551614 0)) as (_ & _ & Htrue).
    apply Htrue; [reflexivity | simpl; discriminate | left; reflexivity].
  - destruct (ValidForSessionOp_sentinels_only 7
                (mkSession 7 42 18446744073709551615 3)) as (_ & _ & Htrue).
    apply Htrue; [reflexivity | simpl; discriminate | right; reflexivity].
  - destruct (ValidForSessionOp_sentinels_only 7 (mkSession 7 42 5 4))
      as (_ & Hfalse & _).
    apply Hfalse. left. simpl. split; discriminate.
  - destruct (ValidForSessionOp_sentinels_only 8
                (mkSession 7 42 18446744073709551614 0)) as (_ & Hfalse & _).
    apply Hfalse. right. simpl. discriminate.
Defined.

(** ** Sequences of calls *)

Lemma performAll_cons (c : call) (l : list call) (cs : Session) :
  performAll (c :: l) cs =
  match perform c cs with
  | Returned _ cs1 => performAll l cs1
  | Panicked msg cs1 => Panicked msg cs1
  end.
Proof. reflexivity. Qed.

(** What one call does, by cases on the session it is made on. *)
Lemma perform_cases (c : call) (cs : Session) :
  wf cs ->
  (~ regular cs /\ perform c cs = Panicked "not a regular session" cs) \/
  (regular cs /\ isPrepare c = true /\
   exists v, U64.in_range v /\ v <> NoOPSeriesID /\
     perform c cs =
     Returned tt (mkSession (ClusterID cs) (ClientID cs) v (RespondedTo cs))) \/
  (regular cs /\ c = DoProposalCompleted /\
   SeriesID cs = RespondedTo cs + 1 /\
   perform c cs =
   Returned tt (mkSession (ClusterID cs) (ClientID cs)
                  (U64.wrap (SeriesID cs + 1)) (SeriesID cs))) \/
  (regular cs /\ c = DoProposalCompleted /\
   SeriesID cs <> RespondedTo cs + 1 /\
   perform c cs = Panicked "invalid responded to/series id values" cs).
Proof.
  intros Hwf. destruct (regular_dec cs) as [Hreg | Hirr].
  - right. destruct c; simpl.
    + left. split; [assumption | split; [reflexivity |]].
      exists SeriesIDForRegister. unfold PrepareForRegister.
      rewrite (guarded_runs _ cs Hreg).
      repeat split; unfold_constants; lia.
    + left. split; [assumption | split; [reflexivity |]].
      exists SeriesIDForUnregister. unfold PrepareForUnregister.
      rewrite (guarded_runs _ cs Hreg).
      repeat split; unfold_constants; lia.
    + left. split; [assumption | split; [reflexivity |]].
      exists SeriesIDFirstProposal. unfold PrepareForPropose.
      rewrite (guarded_runs _ cs Hreg).
      repeat split; unfold_constants; lia.
    + right.
      destruct (Z.eq_dec (SeriesID cs) (RespondedTo cs + 1)) as [Heq | Hne].
      * left. repeat split; try assumption; try apply Hreg.
        now apply ProposalCompleted_returns.
      * right. repeat split; try assumption; try apply Hreg.
        now apply ProposalCompleted_panics.
  - left. split; [assumption |].
    destruct c; simpl;
      unfold PrepareForRegister, PrepareForUnregister, PrepareForPropose,
        ProposalCompleted; now apply guarded_panics.
Qed.

Lemma perform_identity (c : call) (cs : Session) :
  ClusterID (session_of (perform c cs)) = ClusterID cs /\
  ClientID (session_of (perform c cs)) = ClientID cs.
Proof.
  destruct c; simpl; unfold_methods; case_tests; split; reflexivity.
Qed.

Lemma perform_panic_untouched (c : call) (cs cs' : Session) (msg : string) :
  perform c cs = Panicked msg cs' -> cs' = cs.
Proof.
  destruct cs as [g cid s r].
  destruct c; simpl; unfold_methods; case_tests; intros Hp;
    try discriminate Hp; now injection Hp as _ <-.
Qed.

Lemma perform_wf (c : call) (cs : Session) :
  wf cs -> wf (session_of (perform c cs)).
Proof.
  intros Hwf.
  destruct (perform_cases c cs Hwf)
    as [(_ & ->) | [(_ & _ & v & Hv & _ & ->) | [(_ & _ & _ & ->) | (_ & _ & _ & ->)]]];
    simpl; try assumption.
  - destruct Hwf as (Hg & Hc & Hs & Hr). repeat split; simpl; try apply Hg;
      try apply Hc; try apply Hr; apply Hv.
  - destruct Hwf as (Hg & Hc & Hs & Hr).
    pose proof (wrap_in_range (SeriesID cs + 1)) as Hw.
    repeat split; simpl; try apply Hg; try apply Hc; try apply Hs; apply Hw.
Qed.

(** X1.  No call, and no sequence of calls, ever changes the cluster id or
    the client id of a session.  A call that panics leaves the whole session
    as it found it, and the two checks [ValidForProposal] and
    [ClusterIDMustMatch] never write to the session, whatever they answer. *)
Theorem calls_keep_identity
  (l : list call) (c : call) (clusterID : Z) (cs : Session) :
  ClusterID (session_of (performAll l cs)) = ClusterID cs /\
  ClientID (session_of (performAll l cs)) = ClientID cs /\
  (forall msg cs', perform c cs = Panicked msg cs' -> cs' = cs) /\
  session_of (ValidForProposal clusterID cs) = cs /\
  session_of (ClusterIDMustMatch clusterID cs) = cs.
Proof.
  assert (Hall : forall l cs,
             ClusterID (session_of (performAll l cs)) = ClusterID cs /\
             ClientID (session_of (performAll l cs)) = ClientID cs).
  { clear. induction l as [| c l IH]; intros cs.
    - split; reflexivity.
    - rewrite performAll_cons.
      pose proof (perform_identity c cs) as Hone.
      destruct (perform c cs) as [u cs1 | msg cs1]; simpl in Hone.
      + destruct (IH cs1) as [Hg Hc]. destruct Hone as [Hg1 Hc1].
        split; congruence.
      + exact Hone. }
  destruct (Hall l cs) as [Hg Hc].
  split; [exact Hg | split; [exact Hc | split; [| split]]].
  - intros msg cs'. apply perform_panic_untouched.
  - unfold_methods. case_tests; reflexivity.
  - unfold_methods. case_tests; reflexivity.
Qed.

Lemma calls_keep_identity_witness :
  ClientID (session_of (performAll [DoPrepareForRegister; DoProposalCompleted]
                          (mkSession 7 42 1 0))) = 42 /\
  (forall msg cs',
     perform DoProposalCompleted (mkSession 7 42 5 0) = Panicked msg cs' ->
     cs' = mkSession 7 42 5 0).
Proof.
  split.
  - destruct (calls_keep_identity [DoPrepareForRegister; DoProposalCompleted]
                DoProposalCompleted 7 (mkSession 7 42 1 0)) as (_ & Hc & _).
    exact Hc.
  - destruct (calls_keep_identity [] DoProposalCompleted 7 (mkSession 7 42 5 0))
      as (_ & _ & Hpanic & _).
    exact Hpanic.
Defined.

Lemma performAll_wf (l : list call) :
  forall cs, wf cs -> wf (session_of (performAll l cs)).
Proof.
  induction l as [| c l IH]; intros cs Hwf.
  - exact Hwf.
  - rewrite performAll_cons.
    pose proof (perform_wf c cs Hwf) as Hone.
    destruct (perform c cs) as [u cs1 | msg cs1]; simpl in Hone.
    + now apply IH.
    + exact Hone.
Qed.

(** X2.  Every field of a session stays a [uint64]: the constructors make
    such sessions when given a [uint64] cluster id, and any sequence of calls
    started on such a session ends on one, whether the sequence returned or
    panicked on the way. *)
Theorem sessions_stay_uint64 {R : Type} `{Source R}
  (fuel : nat) (clusterID : Z) (rng rng' : R) (fresh cs : Session)
  (l : list call) :
  (U64.in_range clusterID ->
   NewSession fuel clusterID rng = Some (fresh, rng') -> wf fresh) /\
  (U64.in_range clusterID ->
   NewNoOPSession fuel clusterID rng = Some (fresh, rng') -> wf fresh) /\
  (wf cs -> wf (session_of (performAll l cs))).
Proof.
  split; [| split].
  - intros Hg Hnew. apply NewSession_fields in Hnew.
    destruct Hnew as (Hcl & _ & Hc & Hs & Hr).
    unfold wf. rewrite Hcl, Hs, Hr.
    repeat split; try apply Hg; try apply Hc; unfold_constants; lia.
  - intros Hg Hnew. apply NewNoOPSession_fields in Hnew.
    destruct Hnew as (Hcl & _ & Hc & Hs & Hr).
    unfold wf. rewrite Hcl, Hs, Hr.
    repeat split; try apply Hg; try apply Hc; unfold_constants; lia.
  - apply performAll_wf.
Qed.

Lemma sessions_stay_uint64_witness :
  wf (mkSession 7 42 1 0) /\
  wf (session_of (performAll [DoProposalCompleted; DoPrepareForUnregister]
                    (mkSession 7 42 1 0))).
Proof.
  destruct (sessions_stay_uint64 (R := list Z) 3 7 [0; 42] []
              (mkSession 7 42 1 0) (mkSession 7 42 1 0)
              [DoProposalCompleted; DoPrepareForUnregister])
    as (Hnew & _ & Hcalls).
  assert (Hfresh : wf (mkSession 7 42 1 0)).
  { apply Hnew; [unfold_constants; lia | reflexivity]. }
  split; [exact Hfresh | exact (Hcalls Hfresh)].
Defined.

(** X3.  [RespondedTo] counts the completed proposals: when a sequence of
    calls made on a well-formed session returns, [RespondedTo] has grown by
    exactly the number of [ProposalCompleted] calls in the sequence.  It is
    never reset, never decreases and never wraps around. *)
Theorem RespondedTo_counts_completions (l : list call) :
  forall cs cs' : Session,
    wf cs ->
    performAll l cs = Returned tt cs' ->
    RespondedTo cs' = RespondedTo cs + Z.of_nat (completions l).
Proof.
  induction l as [| c l IH]; intros cs cs' Hwf Hrun.
  - injection Hrun as <-. simpl. lia.
  - rewrite performAll_cons in Hrun.
    pose proof (perform_wf c cs Hwf) as Hwf1.
    destruct (perform_cases c cs Hwf)
      as [(_ & Hp) | [(_ & Hprep & v & _ & _ & Hp)
                     | [(_ & -> & Hseq & Hp) | (_ & _ & _ & Hp)]]];
      rewrite Hp in Hrun, Hwf1; simpl in Hwf1; try discriminate Hrun.
    + rewrite (IH _ _ Hwf1 Hrun). simpl.
      destruct c; simpl in *; try discriminate Hprep; reflexivity.
    + rewrite (IH _ _ Hwf1 Hrun).
      change (completions (DoProposalCompleted :: l)) with (S (completions l)).
      simpl RespondedTo. lia.
Qed.

Lemma RespondedTo_counts_completions_witness :
  wf (mkSession 7 42 1 0) /\
  performAll [DoProposalCompleted; DoPrepareForRegister; DoPrepareForPropose]
    (mkSession 7 42 1 0) = Returned tt (mkSession 7 42 1 1) /\
  RespondedTo (mkSession 7 42 1 1) = 1.
Proof.
  assert (Hwf : wf (mkSession 7 42 1 0)) by (unfold_constants; simpl; lia).
  split; [exact Hwf | split; [reflexivity |]].
  exact (RespondedTo_counts_completions
           [DoProposalCompleted; DoPrepareForRegister; DoPrepareForPropose]
           (mkSession 7 42 1 0) (mkSession 7 42 1 1) Hwf eq_refl).
Defined.

(** X4.  Consecutive completions: on a well-formed regular session with
    [SeriesID = RespondedTo + 1], [n] calls of [ProposalCompleted] in a row
    all return, as long as the series id stays within [uint64], and move
    [SeriesID] and [RespondedTo] forward by [n] together. *)
Theorem consecutive_completions (n : nat) :
  forall cs : Session,
    wf cs -> regular cs ->
    SeriesID cs = RespondedTo cs + 1 ->
    SeriesID cs + Z.of_nat n <= U64.MaxUint64 ->
    performAll (repeat DoProposalCompleted n) cs =
    Returned tt (mkSession (ClusterID cs) (ClientID cs)
                   (SeriesID cs + Z.of_nat n) (RespondedTo cs + Z.of_nat n)).
Proof.
  induction n as [| n IH]; intros cs Hwf Hreg Hseq Hmax.
  - destruct cs as [g cid s r]. simpl. unfold ret.
    do 2 f_equal; lia.
  - change (repeat DoProposalCompleted (S n))
      with (DoProposalCompleted :: repeat DoProposalCompleted n).
    rewrite performAll_cons.
    change (perform DoProposalCompleted cs) with (ProposalCompleted cs).
    rewrite (ProposalCompleted_returns cs Hwf Hreg Hseq).
    assert (Hs : U64.in_range (SeriesID cs)) by apply Hwf.
    assert (Hw : U64.wrap (SeriesID cs + 1) = SeriesID cs + 1).
    { rewrite (wrap_succ _ Hs).
      destruct (Z.eqb_spec (SeriesID cs) U64.MaxUint64); [lia | reflexivity]. }
    rewrite Hw.
    rewrite IH; simpl.
    + do 2 f_equal; lia.
    + destruct Hwf as (Hg & Hc & _ & _).
      repeat split; simpl; try apply Hg; try apply Hc; try apply Hs;
        unfold_constants; lia.
    + destruct Hreg as [Hc _]. split; simpl; [exact Hc |].
      unfold_constants. lia.
    + reflexivity.
    + lia.
Qed.

Lemma consecutive_completions_witness :
  performAll (repeat DoProposalCompleted 3) (mkSession 7 42 1 0) =
  Returned tt (mkSession 7 42 4 3).
Proof.
  apply (consecutive_completions 3 (mkSession 7 42 1 0));
    unfold_constants; simpl; try reflexivity; lia.
Defined.

(** ** How the calls compose *)

(** X5.  The last preparation wins: running one of the three [PrepareFor]
    methods right after another gives the same outcome, session included, as
    running the second one alone, on every session. *)
Theorem last_prepare_wins (c1 c2 : call) (cs : Session) :
  isPrepare c1 = true -> isPrepare c2 = true ->
  (perform c1 ;; perform c2) cs = perform c2 cs.
Proof.
  intros H1 H2. destruct cs as [g cid s r].
  destruct c1; try discriminate H1; destruct c2; try discriminate H2;
    simpl; unfold_methods; unfold_constants; simpl;
    case_tests; try reflexivity; contradiction.
Qed.

Lemma last_prepare_wins_witness :
  (perform DoPrepareForRegister ;; perform DoPrepareForPropose)
    (mkSession 7 42 9 8) = Returned tt (mkSession 7 42 1 8).
Proof.
  exact (last_prepare_wins DoPrepareForRegister DoPrepareForPropose
           (mkSession 7 42 9 8) eq_refl eq_refl).
Defined.

(** X6.  A session made by [NewNoOPSession] cannot be driven: each of
    [PrepareForRegister], [PrepareForUnregister], [PrepareForPropose] and
    [ProposalCompleted] panics on it as not regular and leaves it untouched.
    It is not valid for session operations, and it is valid for proposals on
    its own cluster. *)
Theorem NoOP_session_refuses_calls {R : Type} `{Source R}
  (fuel : nat) (clusterID : Z) (rng rng' : R) (cs : Session) (c : call) :
  NewNoOPSession fuel clusterID rng = Some (cs, rng') ->
  perform c cs = Panicked "not a regular session" cs /\
  ValidForSessionOp clusterID cs = false /\
  ValidForProposal clusterID cs = Returned true cs.
Proof.
  intros Hnew. apply NewNoOPSession_fields in Hnew.
  destruct Hnew as (Hg & Hc & _ & Hs & Hr).
  split; [| split].
  - assert (Hirr : ~ regular cs) by (intros [_ Hns]; contradiction).
    destruct c; simpl;
      unfold PrepareForRegister, PrepareForUnregister, PrepareForPropose,
        ProposalCompleted; now apply guarded_panics.
  - destruct (ValidForSessionOp clusterID cs) eqn:Hv; [| reflexivity].
    apply ValidForSessionOp_true_iff in Hv.
    destruct Hv as (_ & _ & [Hv | Hv]); rewrite Hs in Hv; discriminate Hv.
  - apply ValidForProposal_true; try assumption.
    + rewrite Hs. discriminate.
    + rewrite Hs. discriminate.
    + rewrite Hs, Hr. unfold_constants. lia.
Qed.

Lemma NoOP_session_refuses_calls_witness :
  perform DoPrepareForPropose (mkSession 7 42 0 0) =
    Panicked "not a regular session" (mkSession 7 42 0 0) /\
  ValidForSessionOp 7 (mkSession 7 42 0 0) = false /\
  ValidForProposal 7 (mkSession 7 42 0 0) = Returned true (mkSession 7 42 0 0).
Proof.
  exact (NoOP_session_refuses_calls (R := list Z) 2 7 [0; 42] []
           (mkSession 7 42 0 0) DoPrepareForPropose eq_refl).
Defined.

(** X7.  The life of a session made by [NewSession]: as created it is valid
    for proposals on its cluster and not for session operations.
    [PrepareForRegister] and [PrepareForUnregister] return on it and turn
    this around: the prepared session is valid for session operations and not
    for proposals.  [PrepareForPropose] on the session prepared for register
    gives back the session as it was created, and [ProposalCompleted] on the
    created session returns with series id 2 and responded-to 1. *)
Theorem fresh_session_lifecycle {R : Type} `{Source R}
  (fuel : nat) (clusterID : Z) (rng rng' : R) (cs : Session) :
  NewSession fuel clusterID rng = Some (cs, rng') ->
  ValidForProposal clusterID cs = Returned true cs /\
  ValidForSessionOp clusterID cs = false /\
  (exists cs1,
     PrepareForRegister cs = Returned tt cs1 /\
     ValidForSessionOp clusterID cs1 = true /\
     ValidForProposal clusterID cs1 = Returned false cs1 /\
     PrepareForPropose cs1 = Returned tt cs) /\
  (exists cs2,
     PrepareForUnregister cs = Returned tt cs2 /\
     ValidForSessionOp clusterID cs2 = true /\
     ValidForProposal clusterID cs2 = Returned false cs2) /\
  ProposalCompleted cs = Returned tt (mkSession clusterID (ClientID cs) 2 1).
Proof.
  intros Hnew. apply NewSession_fields in Hnew.
  destruct cs as [g cid s r]. simpl in Hnew.
  destruct Hnew as (-> & Hc & _ & -> & ->).
  unfold NotSessionManagedClientID in Hc.
  assert (Hcid : (cid =? 0) = false) by now apply Z.eqb_neq.
  split; [| split; [| split; [| split]]].
  - unfold_methods. unfold_constants. simpl. rewrite Hcid, Z.eqb_refl.
    reflexivity.
  - unfold_methods. unfold_constants. simpl. rewrite Hcid, Z.eqb_refl.
    reflexivity.
  - exists (mkSession clusterID cid SeriesIDForRegister 0).
    unfold_methods. unfold_constants. simpl.
    rewrite Hcid, Z.eqb_refl. simpl. repeat split.
  - exists (mkSession clusterID cid SeriesIDForUnregister 0).
    unfold_methods. unfold_constants. simpl.
    rewrite Hcid, Z.eqb_refl. simpl. repeat split.
  - unfold_methods. unfold_constants. simpl. rewrite Hcid. reflexivity.
Qed.

Lemma fresh_session_lifecycle_witness :
  ValidForProposal 7 (mkSession 7 42 1 0) = Returned true (mkSession 7 42 1 0) /\
  ValidForSessionOp 7 (mkSession 7 42 1 0) = false.
Proof.
  assert (Hnew : NewSession 3 7 [0; 42] = Some (mkSession 7 42 1 0, []))
    by reflexivity.
  destruct (fresh_session_lifecycle 3 7 [0; 42] [] (mkSession 7 42 1 0) Hnew)
    as (Hp & Hs & _).
  split; [exact Hp | exact Hs].
Defined.

(** X8.  The two validity checks never both accept a session: no session is
    valid for session operations and for proposals at once.  On a regular
    session of the given cluster with [RespondedTo <= SeriesID] exactly one
    of them accepts. *)
Theorem validity_checks_exclusive (clusterID : Z) (cs : Session) :
  ~ (ValidForSessionOp clusterID cs = true /\
     ValidForProposal clusterID cs = Returned true cs) /\
  (regular cs -> ClusterID cs = clusterID -> RespondedTo cs <= SeriesID cs ->
   ValidForProposal clusterID cs =
   Returned (negb (ValidForSessionOp clusterID cs)) cs).
Proof.
  split.
  - intros [Hop Hprop]. apply ValidForSessionOp_true_iff in Hop.
    destruct Hop as (_ & _ & Hsent).
    rewrite ValidForProposal_false in Hprop by tauto. discriminate Hprop.
  - intros [Hc Hs] Hg Hord.
    destruct (ValidForSessionOp clusterID cs) eqn:Hop; simpl.
    + apply ValidForSessionOp_true_iff in Hop.
      apply ValidForProposal_false. tauto.
    + apply ValidForProposal_true; try assumption.
      * intros Hreg. rewrite (proj2 (ValidForSessionOp_true_iff clusterID cs))
          in Hop by tauto. discriminate Hop.
      * intros Hunreg. rewrite (proj2 (ValidForSessionOp_true_iff clusterID cs))
          in Hop by tauto. discriminate Hop.
Qed.

Lemma validity_checks_exclusive_witness :
  ValidForProposal 7 (mkSession 7 42 18446744073709551615 3) =
  Returned false (mkSession 7 42 18446744073709551615 3).
Proof.
  destruct (validity_checks_exclusive 7 (mkSession 7 42 18446744073709551615 3))
    as (_ & Hone).
  apply Hone; unfold_constants; simpl; try reflexivity; lia.
Defined.

(** ** The checks, exactly *)

(** X9.  The three outcomes of [ValidForProposal], exactly.  It returns true
    when the cluster id matches, the client id is not 0, the series id is
    neither the Register nor the Unregister sentinel and
    [RespondedTo <= SeriesID]; it panics under the same conditions with
    [RespondedTo > SeriesID]; it returns false when the cluster id differs,
    the client id is 0 or the series id is one of these two sentinels.  The
    NoOP series id plays no part in the answer. *)
Theorem ValidForProposal_outcomes (clusterID : Z) (cs : Session) :
  (ValidForProposal clusterID cs = Returned true cs <->
   ClusterID cs = clusterID /\ ClientID cs <> NotSessionManagedClientID /\
   SeriesID cs <> SeriesIDForRegister /\ SeriesID cs <> SeriesIDForUnregister /\
   RespondedTo cs <= SeriesID cs) /\
  (ValidForProposal clusterID cs = Panicked "cs.RespondedTo > cs.SeriesID" cs <->
   ClusterID cs = clusterID /\ ClientID cs <> NotSessionManagedClientID /\
   SeriesID cs <> SeriesIDForRegister /\ SeriesID cs <> SeriesIDForUnregister /\
   RespondedTo cs > SeriesID cs) /\
  (ValidForProposal clusterID cs = Returned false cs <->
   ClusterID cs <> clusterID \/ ClientID cs = NotSessionManagedClientID \/
   SeriesID cs = SeriesIDForRegister \/ SeriesID cs = SeriesIDForUnregister).
Proof.
  assert (Hcases :
    (ClusterID cs <> clusterID \/ ClientID cs = NotSessionManagedClientID \/
     SeriesID cs = SeriesIDForRegister \/ SeriesID cs = SeriesIDForUnregister) \/
    (ClusterID cs = clusterID /\ ClientID cs <> NotSessionManagedClientID /\
     SeriesID cs <> SeriesIDForRegister /\ SeriesID cs <> SeriesIDForUnregister /\
     (RespondedTo cs <= SeriesID cs \/ RespondedTo cs > SeriesID cs))).
  { destruct (Z.eq_dec (ClusterID cs) clusterID);
      destruct (Z.eq_dec (ClientID cs) NotSessionManagedClientID);
      destruct (Z.eq_dec (SeriesID cs) SeriesIDForRegister);
      destruct (Z.eq_dec (SeriesID cs) SeriesIDForUnregister);
      try tauto.
    right. repeat split; try assumption. lia. }
  destruct Hcases as [Hno | (Hg & Hc & Hr & Hu & [Hle | Hgt])].
  - rewrite (ValidForProposal_false clusterID cs Hno).
    split; [| split]; split; intros Hyp; try discriminate Hyp; try tauto.
  - rewrite (ValidForProposal_true clusterID cs Hg Hc Hr Hu Hle).
    split; [| split]; split; intros Hyp; try discriminate Hyp;
      try tauto; try lia.
  - rewrite (ValidForProposal_panics clusterID cs Hg Hc Hr Hu Hgt).
    split; [| split]; split; intros Hyp; try discriminate Hyp;
      try tauto; try lia.
Qed.

Lemma ValidForProposal_outcomes_witness :
  ValidForProposal 7 (mkSession 7 42 0 0) = Returned true (mkSession 7 42 0 0) /\
  ValidForProposal 7 (mkSession 7 42 0 1) =
    Panicked "cs.RespondedTo > cs.SeriesID" (mkSession 7 42 0 1) /\
  ValidForProposal 7 (mkSession 8 42 1 5) = Returned false (mkSession 8 42 1 5).
Proof.
  split; [| split].
  - apply (proj1 (ValidForProposal_outcomes 7 (mkSession 7 42 0 0))).
    unfold_constants. simpl. lia.
  - apply (proj1 (proj2 (ValidForProposal_outcomes 7 (mkSession 7 42 0 1)))).
    unfold_constants. simpl. lia.
  - apply (proj2 (proj2 (ValidForProposal_outcomes 7 (mkSession 8 42 1 5)))).
    unfold_constants. simpl. lia.
Defined.

(** X10.  [ClusterIDMustMatch] agrees with the validity checks: it returns,
    without touching the session, exactly when the cluster id of the session
    is the given one.  So it returns on every session that either validity
    check accepts for that cluster, and where it panics both checks answer
    false ([ValidForProposal] never gets to its own panic there). *)
Theorem ClusterIDMustMatch_agrees (clusterID : Z) (cs : Session) :
  (ClusterIDMustMatch clusterID cs = Returned tt cs <->
   ClusterID cs = clusterID) /\
  (ValidForSessionOp clusterID cs = true \/
   ValidForProposal clusterID cs = Returned true cs ->
   ClusterIDMustMatch clusterID cs = Returned tt cs) /\
  (ClusterID cs <> clusterID ->
   ClusterIDMustMatch clusterID cs = Panicked "cluster id do not match" cs /\
   ValidForSessionOp clusterID cs = false /\
   ValidForProposal clusterID cs = Returned false cs).
Proof.
  assert (Hmatch : ClusterIDMustMatch clusterID cs = Returned tt cs <->
                   ClusterID cs = clusterID).
  { unfold_methods. case_tests; split; intros Hyp;
      try discriminate Hyp; try reflexivity; try assumption; contradiction. }
  split; [exact Hmatch | split].
  - intros [Hop | Hprop]; apply Hmatch.
    + apply ValidForSessionOp_true_iff in Hop. tauto.
    + apply ValidForProposal_outcomes in Hprop. tauto.
  - intros Hne. split; [| split].
    + unfold_methods. case_tests; [contradiction | reflexivity].
    + destruct (ValidForSessionOp clusterID cs) eqn:Hop; [| reflexivity].
      apply ValidForSessionOp_true_iff in Hop. tauto.
    + apply ValidForProposal_false. tauto.
Qed.

Lemma ClusterIDMustMatch_agrees_witness :
  ClusterIDMustMatch 7 (mkSession 7 42 18446744073709551614 0) =
    Returned tt (mkSession 7 42 18446744073709551614 0) /\
  ClusterIDMustMatch 8 (mkSession 7 42 1 5) =
    Panicked "cluster id do not match" (mkSession 7 42 1 5).
Proof.
  split.
  - destruct (ClusterIDMustMatch_agrees 7 (mkSession 7 42 18446744073709551614 0))
      as (_ & Haccepted & _).
    apply Haccepted. left. reflexivity.
  - destruct (ClusterIDMustMatch_agrees 8 (mkSession 7 42 1 5))
      as (_ & _ & Hrefused).
    apply Hrefused. simpl. discriminate.
Defined.

(** ** Edges of the series *)

(** X11.  [PrepareForPropose] only opens the series of a session that has
    completed nothing yet.  On a well-formed regular session,
    [PrepareForPropose] followed by [ProposalCompleted] returns, with series
    id 2 and responded-to 1, when [RespondedTo] is 0; for any other
    [RespondedTo] the completion panics, and the session is left with the
    series id 1 that [PrepareForPropose] wrote. *)
Theorem PrepareForPropose_then_complete (cs : Session) :
  wf cs -> regular cs ->
  (RespondedTo cs = 0 ->
   (PrepareForPropose ;; ProposalCompleted) cs =
   Returned tt (mkSession (ClusterID cs) (ClientID cs) 2 1)) /\
  (RespondedTo cs <> 0 ->
   (PrepareForPropose ;; ProposalCompleted) cs =
   Panicked "invalid responded to/series id values"
     (mkSession (ClusterID cs) (ClientID cs) 1 (RespondedTo cs))).
Proof.
  intros Hwf Hreg.
  assert (Hprep : PrepareForPropose cs =
                  Returned tt (mkSession (ClusterID cs) (ClientID cs) 1
                                 (RespondedTo cs))).
  { unfold PrepareForPropose. now rewrite guarded_runs. }
  assert (Hwf1 : wf (mkSession (ClusterID cs) (ClientID cs) 1 (RespondedTo cs))).
  { destruct Hwf as (Hg & Hc & _ & Hr).
    repeat split; simpl; try apply Hg; try apply Hc; try apply Hr;
      unfold_constants; lia. }
  assert (Hreg1 : regular (mkSession (ClusterID cs) (ClientID cs) 1
                             (RespondedTo cs))).
  { destruct Hreg as [Hc _]. split; simpl; [exact Hc | discriminate]. }
  split; intros Hr; unfold bind at 1; rewrite Hprep.
  - rewrite (ProposalCompleted_returns _ Hwf1 Hreg1); simpl.
    + reflexivity.
    + rewrite Hr. reflexivity.
  - apply (ProposalCompleted_panics _ Hwf1 Hreg1). simpl. lia.
Qed.

Lemma PrepareForPropose_then_complete_witness :
  (PrepareForPropose ;; ProposalCompleted) (mkSession 7 42 4 3) =
  Panicked "invalid responded to/series id values" (mkSession 7 42 1 3).
Proof.
  destruct (PrepareForPropose_then_complete (mkSession 7 42 4 3))
    as (_ & Hstuck); try (unfold_constants; simpl; lia).
  apply Hstuck. simpl. discriminate.
Defined.

(** X12.  Completing proposals runs into the Register sentinel.  When a
    well-formed session is valid for proposals and [ProposalCompleted]
    returns on it, the series id was at most [2^64 - 3]; below that value the
    advanced session is still valid for proposals, and at that value the
    advanced session carries the Register series id: it is no longer valid
    for proposals and is valid for session operations instead. *)
Theorem completion_reaches_sentinel (clusterID : Z) (cs cs' : Session) :
  wf cs ->
  ValidForProposal clusterID cs = Returned true cs ->
  ProposalCompleted cs = Returned tt cs' ->
  SeriesID cs <= U64.MaxUint64 - 2 /\
  (SeriesID cs < U64.MaxUint64 - 2 ->
   ValidForProposal clusterID cs' = Returned true cs') /\
  (SeriesID cs = U64.MaxUint64 - 2 ->
   SeriesID cs' = SeriesIDForRegister /\
   ValidForProposal clusterID cs' = Returned false cs' /\
   ValidForSessionOp clusterID cs' = true).
Proof.
  intros Hwf Hvalid Hdone.
  apply ValidForProposal_outcomes in Hvalid.
  destruct Hvalid as (Hg & Hc & Hr & Hu & Hord).
  apply ProposalCompleted_returned_inv in Hdone; [| assumption].
  destruct Hdone as ([_ Hs0] & Hseq & ->).
  assert (Hs : U64.in_range (SeriesID cs)) by apply Hwf.
  assert (Hw : U64.wrap (SeriesID cs + 1) = SeriesID cs + 1).
  { rewrite (wrap_succ _ Hs).
    destruct (Z.eqb_spec (SeriesID cs) U64.MaxUint64) as [Htop | _];
      [| reflexivity].
    exfalso. apply Hu. exact Htop. }
  rewrite Hw.
  split; [unfold_constants; lia | split].
  - intros Hlow. apply ValidForProposal_true; simpl; try assumption;
      unfold_constants; lia.
  - intros Hedge. split; [simpl; unfold_constants; lia | split].
    + apply ValidForProposal_false. simpl. right. right. left.
      unfold_constants. lia.
    + apply ValidForSessionOp_true_iff. simpl.
      split; [assumption | split; [assumption |]].
      left. unfold_constants. lia.
Qed.

Lemma completion_reaches_sentinel_witness :
  ValidForSessionOp 7
    (mkSession 7 42 18446744073709551614 18446744073709551613) = true.
Proof.
  destruct (completion_reaches_sentinel 7
              (mkSession 7 42 18446744073709551613 18446744073709551612)
              (mkSession 7 42 18446744073709551614 18446744073709551613))
    as (_ & _ & Hedge);
    [unfold_constants; simpl; lia | reflexivity | reflexivity |].
  apply Hedge. reflexivity.
Defined.

(** X13.  A call that returns was made on a regular session, and the
    session it leaves is regular again, with one exception:
    [ProposalCompleted] at the top series id [2^64 - 1] wraps the series id
    to 0.  A session that is not regular is stuck: every further call panics
    on it. *)
Theorem calls_keep_regular (c : call) (cs cs' : Session) :
  wf cs ->
  perform c cs = Returned tt cs' ->
  regular cs /\
  (regular cs' <-> ~ (c = DoProposalCompleted /\ SeriesID cs = U64.MaxUint64)) /\
  (~ regular cs' ->
   forall c', perform c' cs' = Panicked "not a regular session" cs').
Proof.
  intros Hwf Hrun.
  assert (Hstuck : ~ regular cs' ->
            forall c', perform c' cs' = Panicked "not a regular session" cs').
  { intros Hirr c'. destruct c'; simpl;
      unfold PrepareForRegister, PrepareForUnregister, PrepareForPropose,
        ProposalCompleted; now apply guarded_panics. }
  assert (Hs : U64.in_range (SeriesID cs)) by apply Hwf.
  destruct (perform_cases c cs Hwf)
    as [(_ & Hp) | [(Hreg & Hprep & v & _ & Hv & Hp)
                   | [(Hreg & -> & Hseq & Hp) | (_ & _ & _ & Hp)]]];
    rewrite Hp in Hrun; try discriminate Hrun; injection Hrun as <-.
  - split; [exact Hreg | split; [| exact Hstuck]].
    split.
    + intros _ [-> _]. discriminate Hprep.
    + intros _. destruct Hreg as [Hc _]. split; simpl; assumption.
  - split; [exact Hreg | split; [| exact Hstuck]].
    unfold regular. simpl. rewrite (wrap_succ _ Hs).
    destruct Hreg as [Hc Hs0].
    destruct (Z.eqb_spec (SeriesID cs) U64.MaxUint64) as [Htop | Hlow].
    + split; [intros [_ Hz]; now contradiction Hz | intros Hn; exfalso; tauto].
    + split; [intros _ [_ Htop]; contradiction |].
      intros _. split; [exact Hc |]. unfold_constants. lia.
Qed.

Lemma calls_keep_regular_witness :
  perform DoPrepareForPropose
    (mkSession 7 42 0 18446744073709551615) =
  Panicked "not a regular session" (mkSession 7 42 0 18446744073709551615).
Proof.
  destruct (calls_keep_regular DoProposalCompleted
              (mkSession 7 42 18446744073709551615 18446744073709551614)
              (mkSession 7 42 0 18446744073709551615))
    as (_ & _ & Hstuck); [unfold_constants; simpl; lia | reflexivity |].
  apply Hstuck. intros [_ Hs]. apply Hs. reflexivity.
Defined.

(** X14.  The two constructors read the random source alike: on the same
    source and with the same bound on draws, [NewNoOPSession] returns exactly
    when [NewSession] does, leaves the source at the same place, and makes
    the same session except that the series id is the NoOP one. *)
Theorem NewNoOPSession_like_NewSession {R : Type} `{Source R}
  (fuel : nat) (clusterID : Z) :
  forall rng : R,
    NewNoOPSession fuel clusterID rng =
    option_map
      (fun made : Session * R =>
         (mkSession (ClusterID (fst made)) (ClientID (fst made))
            NoOPSeriesID (RespondedTo (fst made)), snd made))
      (NewSession fuel clusterID rng).
Proof.
  induction fuel as [| fuel IH]; intros rng.
  - reflexivity.
  - rewrite NewNoOPSession_step, NewSession_step.
    destruct (negb (fst (Uint64 rng) =? NotSessionManagedClientID)).
    + reflexivity.
    + apply IH.
Qed.
